(** * The native AES-128-CFB8 cipher binding (jni_cipher_openssl.c)

  The three JNI entry points of [jni_cipher_openssl.c], [init], [free] and
  [process], as functions of the state they work on: the cipher contexts
  OpenSSL has allocated and the exception pending in the JNI environment.
  The two libraries the C calls into (JNI, OpenSSL's EVP layer) are not part
  of the repository; each of their functions is modelled here by its
  documented contract, and the choices the environment makes during a call
  (the allocator's answer, an exception raised by the JVM, the backend's
  result code) are an explicit argument, [Outcomes].

  Bytes are integers ([Z]); the places where C reinterprets a value (jbyte
  as unsigned char, pointer as jlong) are written out. *)

From stdpp Require Import gmap strings list fin_maps.
From Stdlib Require Import ZArith Lia.

Local Open Scope Z_scope.

(** ** AES-128, the block cipher behind [EVP_aes_128_cfb8()]

  Modelled from the spec: the block cipher is OpenSSL's, not under src/.
  The spec names it (AES-128, spec 1); FIPS-197 defines it.  This is its
  forward cipher on a 16-byte block held column by column; CFB uses the
  forward direction for both encryption and decryption. *)
Module AES.

(** Multiplication by x in GF(2^8) modulo x^8 + x^4 + x^3 + x + 1. *)
Definition xtime (b : Z) : Z :=
  let s := Z.land (Z.shiftl b 1) 255 in
  if Z.testbit b 7 then Z.lxor s 27 else s.

Fixpoint gmul_bits (n : nat) (a b : Z) : Z :=
  match n with
  | O => 0
  | S n' => Z.lxor (if Z.odd b then a else 0)
                   (gmul_bits n' (xtime a) (Z.shiftr b 1))
  end.

Definition gmul (a b : Z) : Z := gmul_bits 8 a b.

(** The multiplicative inverse (0 for 0) is the 254th power. *)
Definition ginv (a : Z) : Z :=
  let a2 := gmul a a in
  let a4 := gmul a2 a2 in
  let a8 := gmul a4 a4 in
  let a16 := gmul a8 a8 in
  let a32 := gmul a16 a16 in
  let a64 := gmul a32 a32 in
  let a128 := gmul a64 a64 in
  gmul a128 (gmul a64 (gmul a32 (gmul a16 (gmul a8 (gmul a4 a2))))).

Definition rotl8 (b : Z) (n : Z) : Z :=
  Z.land (Z.lor (Z.shiftl b n) (Z.shiftr b (8 - n))) 255.

Definition affine (b : Z) : Z :=
  Z.lxor b (Z.lxor (rotl8 b 1) (Z.lxor (rotl8 b 2)
    (Z.lxor (rotl8 b 3) (Z.lxor (rotl8 b 4) 99)))).

Definition sbox : list Z :=
  Eval vm_compute in map (fun b => affine (ginv b)) (seqZ 0 256).

Definition SubByte (b : Z) : Z := nth (Z.to_nat b) sbox 0.

Definition SubBytes (s : list Z) : list Z := map SubByte s.

Definition xor_bytes (a b : list Z) : list Z := zip_with Z.lxor a b.

Definition AddRoundKey (rk s : list Z) : list Z := xor_bytes s rk.

(** Byte [r + 4c] is row [r] of column [c]; row [r] rotates left by [r]. *)
Definition ShiftRows (s : list Z) : list Z :=
  map (fun i => nth (i mod 4 + 4 * ((i / 4 + i mod 4) mod 4))%nat s 0)
      (seq 0 16).

Definition mix_column (a : list Z) : list Z :=
  let a0 := nth 0 a 0 in
  let a1 := nth 1 a 0 in
  let a2 := nth 2 a 0 in
  let a3 := nth 3 a 0 in
  [ Z.lxor (gmul 2 a0) (Z.lxor (gmul 3 a1) (Z.lxor a2 a3));
    Z.lxor a0 (Z.lxor (gmul 2 a1) (Z.lxor (gmul 3 a2) a3));
    Z.lxor a0 (Z.lxor a1 (Z.lxor (gmul 2 a2) (gmul 3 a3)));
    Z.lxor (gmul 3 a0) (Z.lxor a1 (Z.lxor a2 (gmul 2 a3))) ].

Definition MixColumns (s : list Z) : list Z :=
  mix_column (take 4 s) ++ mix_column (take 4 (drop 4 s)) ++
  mix_column (take 4 (drop 8 s)) ++ mix_column (take 4 (drop 12 s)).

(** One step of the key schedule: the next four words from the last four. *)
Definition next_round_key (rk : list Z) (rcon : Z) : list Z :=
  let w0 := take 4 rk in
  let w1 := take 4 (drop 4 rk) in
  let w2 := take 4 (drop 8 rk) in
  let w3 := take 4 (drop 12 rk) in
  let t := xor_bytes (SubBytes (drop 1 w3 ++ take 1 w3)) [rcon; 0; 0; 0] in
  let v0 := xor_bytes w0 t in
  let v1 := xor_bytes w1 v0 in
  let v2 := xor_bytes w2 v1 in
  let v3 := xor_bytes w3 v2 in
  v0 ++ v1 ++ v2 ++ v3.

Fixpoint expand (n : nat) (rk : list Z) (rcon : Z) : list (list Z) :=
  match n with
  | O => []
  | S n' => let rk' := next_round_key rk rcon in
            rk' :: expand n' rk' (xtime rcon)
  end.

(** The ten round keys that follow the cipher key itself. *)
Definition KeyExpansion (key : list Z) : list (list Z) := expand 10 key 1.

Definition round (s rk : list Z) : list Z :=
  AddRoundKey rk (MixColumns (ShiftRows (SubBytes s))).

Definition final_round (s rk : list Z) : list Z :=
  AddRoundKey rk (ShiftRows (SubBytes s)).

Definition Cipher (key block : list Z) : list Z :=
  let rks := KeyExpansion key in
  let s := foldl round (AddRoundKey key block) (take 9 rks) in
  final_round s (nth 9 rks []).

End AES.

(** ** CFB8 feedback over a 128-bit block function

  Modelled from the spec: the cipher mode is computed inside OpenSSL
  ([EVP_CipherUpdate] on an [EVP_aes_128_cfb8()] context), whose code is not
  under src/.  Spec 4.1: one output byte per input byte, each the input byte
  XORed with one byte of an AES keystream block derived from the feedback
  register, and the register for the next byte takes in the ciphertext byte
  of this one.  The shift of the register is that of NIST SP 800-38A, the
  mode the cipher's name refers to. *)
Module CFB8.
Section Mode.

(** The block function with its key schedule applied, [block128_f]. *)
Variable block : list Z -> list Z.

(** One 8-bit segment.  The register is encrypted, its first byte is the
    keystream byte; the register then shifts left by one byte and the
    ciphertext byte (the output when encrypting, the input when
    decrypting) enters on the right. *)
Definition cfbr_encrypt_block (enc : bool) (ivec : list Z) (b : Z)
  : Z * list Z :=
  let k := nth 0 (block ivec) 0 in
  let out := Z.lxor b k in
  let fed := if enc then out else b in
  (out, drop 1 (ivec ++ [fed])).

Fixpoint CRYPTO_cfb128_8_encrypt (enc : bool) (ivec : list Z) (inp : list Z)
  : list Z * list Z :=
  match inp with
  | [] => ([], ivec)
  | b :: rest =>
      let '(o, ivec1) := cfbr_encrypt_block enc ivec b in
      let '(os, ivec2) := CRYPTO_cfb128_8_encrypt enc ivec1 rest in
      (o :: os, ivec2)
  end.

End Mode.
End CFB8.


(** ** Values crossing the Java / C boundary *)

Definition NULL : Z := 0.

(** [(jlong) ctx]: a 64-bit address read as a signed 64-bit integer. *)
Definition jlong_of_ptr (p : Z) : Z := if p <? 2 ^ 63 then p else p - 2 ^ 64.

(** [(EVP_CIPHER_CTX * ) ptr]: the signed 64-bit integer read as an address. *)
Definition ptr_of_jlong (j : Z) : Z := j mod 2 ^ 64.

(** [(byte * ) keyBytes]: a signed [jbyte] read as an [unsigned char]. *)
Definition byte_of_jbyte (b : Z) : Z := b mod 256.

(** ** The state the binding works on *)

(** A cipher as OpenSSL describes it: the lengths [EVP_CipherInit] copies and
    the function [EVP_CipherUpdate] runs (key, direction, working IV and input
    to output and next working IV). *)
Record EVP_CIPHER := {
  key_len : nat;
  iv_len : nat;
  do_cipher : list Z -> bool -> list Z -> list Z -> list Z * list Z
}.

Record EVP_CIPHER_CTX := {
  ctx_cipher : option EVP_CIPHER;
  ctx_encrypt : bool;
  ctx_key : list Z;
  ctx_iv : list Z
}.

(** A Java exception: its class and its message. *)
Record Exception := { class : string; message : string }.

(** The cipher contexts OpenSSL has allocated, by address, and the exception
    pending in the JNI environment. *)
Record World := {
  contexts : gmap Z EVP_CIPHER_CTX;
  exception : option Exception
}.

(** What the environment decides during one native call. *)
Record Outcomes := {
  (** the address the allocator returns to [EVP_CIPHER_CTX_new], 0 for none *)
  allocated : Z;
  (** the bytes an uninitialised local array happens to hold *)
  stack : list Z;
  (** the exception, if any, the JVM leaves pending while it copies an array
      region whose bounds are valid (one delivered asynchronously, say) *)
  thrown : option Exception;
  (** what the cipher call ([EVP_CipherInit], [EVP_CipherUpdate]) returns when
      its arguments are in order: 1 for success, anything else an error *)
  cipher_result : Z
}.

(** Native code: a function of the world that returns a value. *)
Definition M (A : Type) : Type := World -> A * World.

#[global] Instance M_ret : MRet M := fun A (a : A) w => (a, w).

#[global] Instance M_bind : MBind M :=
  fun A B (f : A -> M B) (m : M A) w => let r := m w in f (fst r) (snd r).

Definition set_contexts (h : gmap Z EVP_CIPHER_CTX) (w : World) : World :=
  {| contexts := h; exception := exception w |}.

Definition set_exception (e : option Exception) (w : World) : World :=
  {| contexts := contexts w; exception := e |}.

(** ** JNI

    The functions of the JNI environment the binding calls.  They belong to
    the calling runtime, not to the repository; each is modelled by what the
    JNI specification says it does. *)

(** Modelled from the spec: JNI's, not under src/.  Spec 6: the key material
    arrives as a byte sequence whose length the engine validates.  The number
    of elements of the array. *)
Definition GetArrayLength (array : list Z) : M Z :=
  mret (Z.of_nat (length array)).

(** Modelled from the spec: JNI's, not under src/.  Spec 6: the engine reads
    the key bytes and never beyond their length.  Copies [len] elements from
    index [start] into [buf]; a region outside the array raises
    ArrayIndexOutOfBoundsException and copies nothing, and so does any
    exception the JVM leaves pending during the call. *)
Definition GetByteArrayRegion (o : Outcomes) (array : list Z) (start len : Z)
  (buf : list Z) : M (list Z) :=
  fun w =>
    if (0 <=? start) && (0 <=? len) &&
       (start + len <=? Z.of_nat (length array)) then
      match thrown o with
      | Some e => (buf, set_exception (Some e) w)
      | None =>
          (take (Z.to_nat len) (drop (Z.to_nat start) array) ++
           drop (Z.to_nat len) buf, w)
      end
    else
      (buf, set_exception
              (Some {| class := "java/lang/ArrayIndexOutOfBoundsException";
                       message := "" |}) w).

(** Modelled from the spec: JNI's, not under src/.  Spec 9: failures cross
    into the host runtime as exceptions.  Whether one is pending. *)
Definition ExceptionCheck : M bool :=
  fun w => (match exception w with Some _ => true | None => false end, w).

(** Modelled from the spec: [throwException] is declared in jni_util.h, which
    is not under src/.  Spec 9 has the original signal each failure as an
    exception crossing into the host runtime: the call leaves an exception of
    the named class, with the message, pending. *)
Definition throwException (type msg : string) : M unit :=
  fun w => (tt, set_exception (Some {| class := type; message := msg |}) w).

(** ** OpenSSL EVP

    The functions of OpenSSL's EVP layer the binding calls.  They are the
    library's, not the repository's; each is modelled by the part spec 4.1
    gives it in construct, process and release. *)

(** A context as [EVP_CIPHER_CTX_new] returns it: zeroed, no cipher set. *)
Definition blank_ctx : EVP_CIPHER_CTX :=
  {| ctx_cipher := None; ctx_encrypt := false; ctx_key := []; ctx_iv := [] |}.

(** Modelled from the spec: OpenSSL's, not under src/.  Spec 4.1: allocates
    the underlying cipher context, or fails when the backend is out of
    memory.  A blank context at the address the allocator returned; NULL when
    the allocator returned none (anything but an unused 64-bit address). *)
Definition EVP_CIPHER_CTX_new (o : Outcomes) : M Z :=
  fun w =>
    let a := allocated o in
    if (0 <? a) && (a <? 2 ^ 64) then
      match contexts w !! a with
      | None => (a, set_contexts (<[a := blank_ctx]> (contexts w)) w)
      | Some _ => (NULL, w)
      end
    else (NULL, w).

(** Modelled from the spec: OpenSSL's, not under src/.  Spec 4.1: frees all
    backend resources owned by the context.  Does nothing for NULL. *)
Definition EVP_CIPHER_CTX_free (ctx : Z) : M unit :=
  fun w =>
    if ctx =? NULL then (tt, w)
    else (tt, set_contexts (delete ctx (contexts w)) w).

(** Modelled from the spec: OpenSSL's, not under src/.  Spec 4.1:
    initialises the context for the cipher with key, initialization vector
    and direction, or reports an initialization error.  On success returns 1
    with cipher, direction, key and IV set, reading as many bytes of [key]
    and [iv] as the cipher asks for; on failure returns the backend's result
    and leaves the context as it is. *)
Definition EVP_CipherInit (o : Outcomes) (ctx : Z) (c : EVP_CIPHER)
  (key iv : list Z) (enc : bool) : M Z :=
  fun w =>
    match contexts w !! ctx with
    | Some _ =>
        if cipher_result o =? 1 then
          (1, set_contexts
                (<[ctx := {| ctx_cipher := Some c; ctx_encrypt := enc;
                             ctx_key := take (key_len c) key;
                             ctx_iv := take (iv_len c) iv |}]> (contexts w)) w)
        else (cipher_result o, w)
    | None => (0, w)
    end.

Definition set_iv (iv : list Z) (x : EVP_CIPHER_CTX) : EVP_CIPHER_CTX :=
  {| ctx_cipher := ctx_cipher x; ctx_encrypt := ctx_encrypt x;
     ctx_key := ctx_key x; ctx_iv := iv |}.

(** Modelled from the spec: OpenSSL's, not under src/.  Spec 4.1: transforms
    the bytes through the cipher and mutates the stream state so that the
    next call continues the same stream; the backend may report an error.
    Returns the result code and the bytes written, and leaves the next
    working IV in the context.  On an error (no context at [ctx], no cipher
    set, or the backend reporting one) nothing is written. *)
Definition EVP_CipherUpdate (o : Outcomes) (ctx : Z) (inp : list Z)
  : M (Z * list Z) :=
  fun w =>
    match contexts w !! ctx with
    | Some x =>
        match ctx_cipher x with
        | Some c =>
            if cipher_result o =? 1 then
              let r := do_cipher c (ctx_key x) (ctx_encrypt x) (ctx_iv x) inp in
              ((1, fst r),
               set_contexts (<[ctx := set_iv (snd r) x]> (contexts w)) w)
            else ((cipher_result o, []), w)
        | None => ((0, []), w)
        end
    | None => ((0, []), w)
    end.

(** ** jni_cipher_openssl.c

    The three functions, statement by statement.  A [return] in the middle
    of the C function is the [then] branch of a conditional whose [else]
    branch holds the rest of the function. *)

Section Binding.

(** The cipher object [EVP_aes_128_cfb8()] returns: OpenSSL's, taken as a
    parameter. *)
Variable EVP_aes_128_cfb8 : EVP_CIPHER.

Definition Java_com_velocitypowered_natives_encryption_OpenSslCipherImpl_init
  (o : Outcomes) (key : list Z) (encrypt : bool) : M Z :=
  keyLen ← GetArrayLength key;
  if negb (keyLen =? 16) then
    throwException "java/lang/IllegalArgumentException" "cipher not 16 bytes";;
    mret 0
  else
    ctx ← EVP_CIPHER_CTX_new o;
    if ctx =? NULL then
      throwException "java/lang/OutOfMemoryError" "allocate cipher";;
      mret 0
    else
      keyBytes ← GetByteArrayRegion o key 0 keyLen (take 16 (stack o));
      pending ← ExceptionCheck;
      if (pending : bool) then mret 0
      else
        result ← EVP_CipherInit o ctx EVP_aes_128_cfb8
                   (map byte_of_jbyte keyBytes) (map byte_of_jbyte keyBytes)
                   encrypt;
        if negb (result =? 1) then
          EVP_CIPHER_CTX_free ctx;;
          throwException "java/security/GeneralSecurityException"
                         "openssl initialize cipher";;
          mret 0
        else mret (jlong_of_ptr ctx).

Definition Java_com_velocitypowered_natives_encryption_OpenSslCipherImpl_free
  (ptr : Z) : M unit :=
  EVP_CIPHER_CTX_free (ptr_of_jlong ptr).

(** The buffers are passed by content: [source] is the [len] bytes at the
    source address, and the value returned is what the call stored at the
    destination address ([EVP_CipherUpdate] writes the count into [len],
    which the C then discards).  The result code of [EVP_CipherUpdate] is
    dropped, as in the C, whose return type is void. *)
Definition Java_com_velocitypowered_natives_encryption_OpenSslCipherImpl_process
  (o : Outcomes) (ptr : Z) (source : list Z) : M (list Z) :=
  r ← EVP_CipherUpdate o (ptr_of_jlong ptr) source;
  mret (snd r).

End Binding.

(** ** The cipher the binding asks for

    Modelled from the spec: what [EVP_aes_128_cfb8()] computes is OpenSSL's,
    not under src/.  Spec 1 and 4.1: AES-128 in CFB8 mode, 16-byte key and
    16-byte initialization vector. *)
Definition aes_128_cfb8 : EVP_CIPHER :=
  {| key_len := 16; iv_len := 16;
     do_cipher := fun key enc iv inp =>
       CFB8.CRYPTO_cfb128_8_encrypt (AES.Cipher key) enc iv inp |}.

Abbreviation init :=
  Java_com_velocitypowered_natives_encryption_OpenSslCipherImpl_init.
Abbreviation free :=
  Java_com_velocitypowered_natives_encryption_OpenSslCipherImpl_free.
Abbreviation process :=
  Java_com_velocitypowered_natives_encryption_OpenSslCipherImpl_process.

(** ** Callers and vocabulary used to state the properties *)

(** A caller that feeds a stream to one context chunk by chunk, in order,
    and concatenates what comes back. *)
Fixpoint process_chunks (o : Outcomes) (ptr : Z) (chunks : list (list Z))
  : M (list Z) :=
  match chunks with
  | [] => mret []
  | c :: cs =>
      out ← process o ptr c;
      outs ← process_chunks o ptr cs;
      mret (out ++ outs)
  end.

(** Modelled from the spec: the failure kinds of spec 7, which the C code
    does not name.  Each is the kind of the failure on which the binding
    raises that exception class. *)
Inductive ErrorKind :=
  | InvalidKeyLength
  | ResourceExhausted
  | BackendInitFailure
  | BackendProcessingFailure.

Definition error_kind (e : Exception) : option ErrorKind :=
  if String.eqb (class e) "java/lang/IllegalArgumentException"
  then Some InvalidKeyLength
  else if String.eqb (class e) "java/lang/OutOfMemoryError"
  then Some ResourceExhausted
  else if String.eqb (class e) "java/security/GeneralSecurityException"
  then Some BackendInitFailure
  else None.

(** The allocator's answer is an address [EVP_CIPHER_CTX_new] can use. *)
Definition usable (w : World) (a : Z) : Prop :=
  0 < a < 2 ^ 64 /\ contexts w !! a = None.

(** [h] is the handle of an allocated context on which cipher [c] is set. *)
Definition live (c : EVP_CIPHER) (w : World) (h : Z) : Prop :=
  exists x, contexts w !! ptr_of_jlong h = Some x /\ ctx_cipher x = Some c.

(** The context a successful [EVP_CipherInit] leaves behind. *)
Definition keyed_ctx (c : EVP_CIPHER) (enc : bool) (key iv : list Z)
  : EVP_CIPHER_CTX :=
  {| ctx_cipher := Some c; ctx_encrypt := enc;
     ctx_key := take (key_len c) key; ctx_iv := take (iv_len c) iv |}.

(** Data of the concrete scenarios: a world with nothing allocated and
    nothing pending, and an environment in which nothing fails and the
    allocator returns address [a]. *)
Definition no_contexts : World := {| contexts := ∅; exception := None |}.

Definition answers (a : Z) : Outcomes :=
  {| allocated := a; stack := []; thrown := None; cipher_result := 1 |}.

Definition hello : list Z :=
  [72; 101; 108; 108; 111; 44; 32; 119; 111; 114; 108; 100; 33].

Definition IllegalArgumentException : Exception :=
  {| class := "java/lang/IllegalArgumentException";
     message := "cipher not 16 bytes" |}.

Definition OutOfMemoryError : Exception :=
  {| class := "java/lang/OutOfMemoryError"; message := "allocate cipher" |}.

Definition GeneralSecurityException : Exception :=
  {| class := "java/security/GeneralSecurityException";
     message := "openssl initialize cipher" |}.

Definition ThreadDeath : Exception :=
  {| class := "java/lang/ThreadDeath"; message := "" |}.

(** What [openssl enc -aes-128-cfb8] prints for "Hello, world!" with the
    all-zero key as key and IV. *)
Definition hello_ciphertext : list Z :=
  [0x2e; 0x7d; 0x25; 0x80; 0x12; 0x56; 0x5b; 0x3f; 0xad; 0x31; 0xc4; 0xba;
   0xb7].

(** Published test vectors: NIST SP 800-38A, F.3.7 (CFB8-AES128). *)
Definition sp800_38a_key : list Z :=
  [0x2b; 0x7e; 0x15; 0x16; 0x28; 0xae; 0xd2; 0xa6;
   0xab; 0xf7; 0x15; 0x88; 0x09; 0xcf; 0x4f; 0x3c].

Definition sp800_38a_plain : list Z :=
  [0x6b; 0xc1; 0xbe; 0xe2; 0x2e; 0x40; 0x9f; 0x96; 0xe9;
   0x3d; 0x7e; 0x11; 0x73; 0x93; 0x17; 0x2a; 0xae; 0x2d].

Definition sp800_38a_cipher : list Z :=
  [0x3b; 0x79; 0x42; 0x4c; 0x9c; 0x0d; 0xd4; 0x36; 0xba;
   0xce; 0x9e; 0x0e; 0xd4; 0x58; 0x6a; 0x4f; 0x32; 0xb9].

(** Every way a call of [init] can end: the value returned and the world
    left behind. *)
Inductive init_outcome (c : EVP_CIPHER) (o : Outcomes) (key : list Z)
  (enc : bool) (w : World) : Z * World -> Prop :=
  | init_bad_length :
      length key ≠ 16%nat ->
      init_outcome c o key enc w
        (0, set_exception (Some IllegalArgumentException) w)
  | init_no_memory :
      length key = 16%nat ->
      ~ usable w (allocated o) ->
      init_outcome c o key enc w
        (0, set_exception (Some OutOfMemoryError) w)
  | init_copy_failed e :
      length key = 16%nat ->
      usable w (allocated o) ->
      match thrown o with Some e' => Some e' | None => exception w end
        = Some e ->
      init_outcome c o key enc w
        (0, {| contexts := <[allocated o := blank_ctx]> (contexts w);
               exception := Some e |})
  | init_backend_failed :
      length key = 16%nat ->
      usable w (allocated o) ->
      thrown o = None -> exception w = None ->
      cipher_result o ≠ 1 ->
      init_outcome c o key enc w
        (0, {| contexts := contexts w;
               exception := Some GeneralSecurityException |})
  | init_ready :
      length key = 16%nat ->
      usable w (allocated o) ->
      thrown o = None -> exception w = None ->
      cipher_result o = 1 ->
      init_outcome c o key enc w
        (jlong_of_ptr (allocated o),
         {| contexts :=
              <[allocated o :=
                  keyed_ctx c enc (map byte_of_jbyte key)
                            (map byte_of_jbyte key)]> (contexts w);
            exception := None |}).

(** * Properties *)

(** ** The cipher model against published vectors *)

Example sbox_entries :
  AES.SubByte 0 = 99 /\ AES.SubByte 1 = 124 /\
  AES.SubByte 83 = 237 /\ AES.SubByte 255 = 22.
Proof. repeat split; reflexivity. Qed.

(** FIPS-197, appendix C.1. *)
Example fips197_c1 :
  AES.Cipher (seqZ 0 16)
    [0x00; 0x11; 0x22; 0x33; 0x44; 0x55; 0x66; 0x77;
     0x88; 0x99; 0xaa; 0xbb; 0xcc; 0xdd; 0xee; 0xff]
  = [0x69; 0xc4; 0xe0; 0xd8; 0x6a; 0x7b; 0x04; 0x30;
     0xd8; 0xcd; 0xb7; 0x80; 0x70; 0xb4; 0xc5; 0x5a].
Proof. vm_compute. reflexivity. Qed.

(** NIST SP 800-38A, F.3.7 and F.3.8. *)
Example sp800_38a_f37 :
  fst (CFB8.CRYPTO_cfb128_8_encrypt (AES.Cipher sp800_38a_key) true
         (seqZ 0 16) sp800_38a_plain) = sp800_38a_cipher.
Proof. vm_compute. reflexivity. Qed.

Example sp800_38a_f38 :
  fst (CFB8.CRYPTO_cfb128_8_encrypt (AES.Cipher sp800_38a_key) false
         (seqZ 0 16) sp800_38a_cipher) = sp800_38a_plain.
Proof. vm_compute. reflexivity. Qed.

Example error_kinds :
  error_kind IllegalArgumentException = Some InvalidKeyLength /\
  error_kind OutOfMemoryError = Some ResourceExhausted /\
  error_kind GeneralSecurityException = Some BackendInitFailure.
Proof. repeat split; reflexivity. Qed.

(** ** Conversions *)

Lemma ptr_of_jlong_of_ptr (a : Z) :
  0 < a < 2 ^ 64 -> ptr_of_jlong (jlong_of_ptr a) = a.
Proof.
  intros Ha. unfold ptr_of_jlong, jlong_of_ptr.
  destruct (Z.ltb_spec a (2 ^ 63)).
  - apply Z.mod_small. lia.
  - replace (a - 2 ^ 64) with (a + (-1) * 2 ^ 64) by lia.
    rewrite Z.mod_add by lia. apply Z.mod_small. lia.
Qed.

Lemma jlong_of_ptr_nonzero (a : Z) : 0 < a < 2 ^ 64 -> jlong_of_ptr a ≠ 0.
Proof.
  intros Ha. unfold jlong_of_ptr. destruct (Z.ltb_spec a (2 ^ 63)); lia.
Qed.

(** A context in the upper half of the address space has a negative
    handle. *)
Example handles :
  fst (init aes_128_cfb8 (answers 4096) (replicate 16 0) true no_contexts)
    = 4096 /\
  fst (init aes_128_cfb8 (answers (2 ^ 64 - 1)) (replicate 16 0) true
         no_contexts) = -1 /\
  ptr_of_jlong (-1) = 2 ^ 64 - 1.
Proof. by vm_compute. Qed.

(** ** The primitives, call by call *)

Lemma EVP_CIPHER_CTX_new_usable (o : Outcomes) (w : World) :
  usable w (allocated o) ->
  EVP_CIPHER_CTX_new o w =
    (allocated o,
     set_contexts (<[allocated o := blank_ctx]> (contexts w)) w).
Proof.
  intros [[H0 H1] Hfree]. unfold EVP_CIPHER_CTX_new.
  destruct (Z.ltb_spec 0 (allocated o)); [|lia].
  destruct (Z.ltb_spec (allocated o) (2 ^ 64)); [|lia].
  cbn [andb]. rewrite Hfree. reflexivity.
Qed.

Lemma EVP_CIPHER_CTX_new_unusable (o : Outcomes) (w : World) :
  ~ usable w (allocated o) -> EVP_CIPHER_CTX_new o w = (NULL, w).
Proof.
  intros Hno. unfold EVP_CIPHER_CTX_new.
  destruct (Z.ltb_spec 0 (allocated o)); [|reflexivity].
  destruct (Z.ltb_spec (allocated o) (2 ^ 64)); [|reflexivity].
  cbn [andb]. destruct (contexts w !! allocated o) eqn:E; [reflexivity|].
  exfalso. apply Hno. split; [lia|assumption].
Qed.

Lemma usable_dec (w : World) (a : Z) : usable w a \/ ~ usable w a.
Proof.
  unfold usable.
  destruct (decide (0 < a < 2 ^ 64)) as [Ha|Ha];
    destruct (contexts w !! a) eqn:E; intuition congruence.
Qed.

Lemma GetByteArrayRegion_key (o : Outcomes) (key : list Z) (w : World) :
  length key = 16%nat ->
  GetByteArrayRegion o key 0 16 (take 16 (stack o)) w =
    match thrown o with
    | Some e => (take 16 (stack o), set_exception (Some e) w)
    | None => (key, w)
    end.
Proof.
  intros Hlen. unfold GetByteArrayRegion. rewrite Hlen.
  change ((0 <=? 0) && (0 <=? 16) && (0 + 16 <=? Z.of_nat 16)) with true.
  cbv iota. destruct (thrown o); [reflexivity|].
  change (Z.to_nat 16) with 16%nat. change (Z.to_nat 0) with 0%nat.
  rewrite drop_0, take_ge by lia.
  rewrite drop_ge by (rewrite length_take; lia).
  rewrite app_nil_r. reflexivity.
Qed.

(** ** [init], path by path *)

Ltac run :=
  unfold init, free, process;
  unfold GetArrayLength, throwException, ExceptionCheck;
  unfold mbind, M_bind, mret, M_ret;
  cbn beta zeta iota delta [fst snd].

Ltac not_null :=
  match goal with
  | |- context [?a =? NULL] =>
      destruct (Z.eqb_spec a NULL) as [E|_]; [unfold NULL in E; lia|]
  end.

Lemma init_cases (c : EVP_CIPHER) (o : Outcomes) (key : list Z) (enc : bool)
  (w : World) : init_outcome c o key enc w (init c o key enc w).
Proof.
  run.
  destruct (decide (length key = 16%nat)) as [Hlen|Hlen].
  2:{ destruct (Z.eqb_spec (Z.of_nat (length key)) 16); [lia|].
      cbn [negb]. by apply init_bad_length. }
  rewrite Hlen. change (Z.of_nat 16 =? 16) with true. cbn [negb].
  destruct (usable_dec w (allocated o)) as [Hu|Hu].
  2:{ rewrite EVP_CIPHER_CTX_new_unusable by done. cbn [fst snd].
      change (NULL =? NULL) with true. cbv iota. by apply init_no_memory. }
  rewrite EVP_CIPHER_CTX_new_usable by done. cbn [fst snd].
  pose proof Hu as [Ha Hfree]. not_null.
  change (Z.of_nat 16) with 16.
  rewrite GetByteArrayRegion_key by done.
  unfold set_exception, set_contexts.
  destruct (thrown o) as [e|] eqn:Hthrown; cbn [fst snd exception contexts].
  { apply init_copy_failed; [done|done|by rewrite Hthrown]. }
  destruct (exception w) as [e|] eqn:Hexc.
  { apply init_copy_failed; [done|done|by rewrite Hthrown]. }
  unfold EVP_CipherInit, set_contexts. cbn [contexts exception].
  rewrite lookup_insert_eq.
  destruct (Z.eqb_spec (cipher_result o) 1) as [Hr|Hr]; cbn [fst snd negb].
  - change (1 =? 1) with true. cbn [negb]. rewrite insert_insert_eq.
    by apply init_ready.
  - destruct (Z.eqb_spec (cipher_result o) 1) as [|_]; [done|]. cbn [negb].
    unfold EVP_CIPHER_CTX_free. not_null.
    unfold set_contexts. cbn [fst snd exception contexts].
    rewrite delete_insert_id by done.
    by apply init_backend_failed.
Qed.

(** A nonzero result comes from the last path only. *)
Lemma init_nonzero (c : EVP_CIPHER) (o : Outcomes) (key : list Z) (enc : bool)
  (w : World) :
  fst (init c o key enc w) ≠ 0 ->
  length key = 16%nat /\ usable w (allocated o) /\
  thrown o = None /\ exception w = None /\ cipher_result o = 1 /\
  init c o key enc w =
    (jlong_of_ptr (allocated o),
     {| contexts :=
          <[allocated o :=
              keyed_ctx c enc (map byte_of_jbyte key)
                        (map byte_of_jbyte key)]> (contexts w);
        exception := None |}).
Proof.
  generalize (init_cases c o key enc w).
  generalize (init c o key enc w). intros r Hr.
  destruct Hr; cbn [fst]; intros Hnz; try congruence.
  auto 10.
Qed.

(** ** [process] on an allocated context *)

Lemma process_live (o : Outcomes) (h : Z) (src : list Z) (w : World)
  (x : EVP_CIPHER_CTX) (c : EVP_CIPHER) :
  contexts w !! ptr_of_jlong h = Some x ->
  ctx_cipher x = Some c ->
  cipher_result o = 1 ->
  process o h src w =
    (fst (do_cipher c (ctx_key x) (ctx_encrypt x) (ctx_iv x) src),
     set_contexts
       (<[ptr_of_jlong h :=
            set_iv (snd (do_cipher c (ctx_key x) (ctx_encrypt x) (ctx_iv x)
                           src)) x]> (contexts w)) w).
Proof.
  intros Hx Hc Hr. run. unfold EVP_CipherUpdate.
  rewrite Hx, Hc, Hr. reflexivity.
Qed.

(** Whatever the update returns, [process] touches neither the pending
    exception nor the set of allocated contexts. *)
Lemma process_frame (o : Outcomes) (h : Z) (src : list Z) (w : World) :
  exception (snd (process o h src w)) = exception w /\
  dom (contexts (snd (process o h src w))) = dom (contexts w).
Proof.
  run. unfold EVP_CipherUpdate.
  destruct (contexts w !! ptr_of_jlong h) as [x|] eqn:Hx; [|done].
  destruct (ctx_cipher x); [|done].
  destruct (cipher_result o =? 1); [|done].
  cbn. split; [done|]. apply dom_insert_lookup_L. eauto.
Qed.

Lemma init_live (c : EVP_CIPHER) (o : Outcomes) (key : list Z) (enc : bool)
  (w : World) :
  fst (init c o key enc w) ≠ 0 ->
  live c (snd (init c o key enc w)) (fst (init c o key enc w)).
Proof.
  intros Hnz. apply init_nonzero in Hnz as (_ & [Ha _] & _ & _ & _ & ->).
  cbn [fst snd]. eexists. rewrite ptr_of_jlong_of_ptr by done.
  cbn [contexts]. rewrite lookup_insert_eq. done.
Qed.

(** The path that returns early after the key copy keeps the context. *)
Lemma init_copy_failure (c : EVP_CIPHER) (o : Outcomes) (key : list Z)
  (enc : bool) (w : World) (e : Exception) :
  length key = 16%nat ->
  usable w (allocated o) ->
  thrown o = Some e ->
  init c o key enc w =
    (0, {| contexts := <[allocated o := blank_ctx]> (contexts w);
           exception := Some e |}).
Proof.
  intros Hlen Hu Ht.
  generalize (init_cases c o key enc w).
  generalize (init c o key enc w). intros r Hr.
  destruct Hr as [| |e' _ _ He| |]; try congruence.
  rewrite Ht in He. congruence.
Qed.

(** A context built by [init] and released by [free] leaves the contexts as
    they were. *)
Lemma free_after_init (c : EVP_CIPHER) (o : Outcomes) (key : list Z)
  (enc : bool) (w : World) :
  fst (init c o key enc w) ≠ 0 ->
  contexts (snd (free (fst (init c o key enc w)) (snd (init c o key enc w))))
    = contexts w.
Proof.
  intros Hnz. apply init_nonzero in Hnz as (_ & [Ha Hfree] & _ & _ & _ & ->).
  run. unfold EVP_CIPHER_CTX_free.
  rewrite ptr_of_jlong_of_ptr by done. not_null.
  cbn [snd set_contexts contexts]. by apply delete_insert_id.
Qed.

(** ** The feedback mode *)

Section ModeFacts.

Variable block : list Z -> list Z.

Local Abbreviation cfb8 := (CFB8.CRYPTO_cfb128_8_encrypt block).

Lemma cfb8_cons (enc : bool) (iv : list Z) (b : Z) (rest : list Z) :
  cfb8 enc iv (b :: rest) =
    let out := Z.lxor b (nth 0 (block iv) 0) in
    let iv' := drop 1 (iv ++ [if enc then out else b]) in
    (out :: fst (cfb8 enc iv' rest), snd (cfb8 enc iv' rest)).
Proof.
  cbn [CFB8.CRYPTO_cfb128_8_encrypt CFB8.cfbr_encrypt_block].
  cbv zeta. destruct (cfb8 enc _ rest). reflexivity.
Qed.

Lemma cfb8_length (enc : bool) (iv inp : list Z) :
  length (fst (cfb8 enc iv inp)) = length inp.
Proof.
  revert iv. induction inp as [|b rest IH]; intros iv; [reflexivity|].
  rewrite cfb8_cons. cbn. by rewrite IH.
Qed.

Lemma cfb8_app (enc : bool) (iv a b : list Z) :
  cfb8 enc iv (a ++ b) =
    (fst (cfb8 enc iv a) ++ fst (cfb8 enc (snd (cfb8 enc iv a)) b),
     snd (cfb8 enc (snd (cfb8 enc iv a)) b)).
Proof.
  revert iv. induction a as [|x a IH]; intros iv.
  - cbn. by destruct (cfb8 enc iv b).
  - rewrite <- app_comm_cons, !cfb8_cons. cbv zeta. rewrite IH. reflexivity.
Qed.

Lemma cfb8_decrypt_encrypt (iv p : list Z) :
  fst (cfb8 false iv (fst (cfb8 true iv p))) = p.
Proof.
  revert iv. induction p as [|b rest IH]; intros iv; [reflexivity|].
  rewrite cfb8_cons. cbv zeta. cbn [fst]. rewrite cfb8_cons. cbv zeta.
  cbn [fst]. rewrite IH.
  by rewrite Z.lxor_assoc, Z.lxor_nilpotent, Z.lxor_0_r.
Qed.

End ModeFacts.

(** A context keyed for [aes_128_cfb8] run chunk by chunk gives what one run
    over the whole stream gives. *)
Lemma process_chunks_live (o : Outcomes) (h : Z) (chunks : list (list Z)) :
  cipher_result o = 1 ->
  forall (w : World) (x : EVP_CIPHER_CTX),
  contexts w !! ptr_of_jlong h = Some x ->
  ctx_cipher x = Some aes_128_cfb8 ->
  fst (process_chunks o h chunks w) =
    fst (CFB8.CRYPTO_cfb128_8_encrypt (AES.Cipher (ctx_key x))
           (ctx_encrypt x) (ctx_iv x) (concat chunks)).
Proof.
  intros Hr. induction chunks as [|ch chunks IH]; intros w x Hx Hc.
  - reflexivity.
  - cbn [process_chunks concat]. unfold mbind, M_bind, mret, M_ret.
    cbv zeta. cbn [fst snd].
    rewrite (process_live o h ch w x aes_128_cfb8) by done.
    cbn [fst snd do_cipher aes_128_cfb8].
    erewrite IH; [|apply lookup_insert_eq|done].
    rewrite cfb8_app. reflexivity.
Qed.

(** ** Construction *)

Section Construction.

(** Whatever cipher object OpenSSL hands out for [EVP_aes_128_cfb8()]. *)
Variable c : EVP_CIPHER.

(** C2: for a key whose length is not 16, [init] returns 0 with
    IllegalArgumentException (the spec's InvalidKeyLength) pending, and the
    contexts are the ones before the call: none was allocated, even where
    the allocator would have provided one. *)
Theorem init_rejects_key_length (o : Outcomes) (key : list Z) (enc : bool)
  (w : World) :
  length key ≠ 16%nat ->
  init c o key enc w = (0, set_exception (Some IllegalArgumentException) w) /\
  error_kind IllegalArgumentException = Some InvalidKeyLength /\
  contexts (snd (init c o key enc w)) = contexts w.
Proof.
  intros Hlen.
  assert (init c o key enc w
          = (0, set_exception (Some IllegalArgumentException) w)) as ->.
  { generalize (init_cases c o key enc w).
    generalize (init c o key enc w). intros r Hr.
    destruct Hr; congruence. }
  done.
Qed.

(** C10: [init] returns a nonzero handle exactly when the key has 16 bytes,
    the allocation succeeded, no exception is pending after the key copy and
    the backend initialised the cipher; a nonzero handle is a non-null
    address at which the keyed context sits, with no exception pending; and
    [init] never places a context at address 0. *)
Theorem init_handle_nonzero_iff_ready (o : Outcomes) (key : list Z)
  (enc : bool) (w : World) :
  let r := init c o key enc w in
  let k := map byte_of_jbyte key in
  (fst r ≠ 0 <->
     length key = 16%nat /\ usable w (allocated o) /\
     thrown o = None /\ exception w = None /\ cipher_result o = 1) /\
  (fst r ≠ 0 ->
     ptr_of_jlong (fst r) ≠ NULL /\
     exception (snd r) = None /\
     contexts (snd r) !! ptr_of_jlong (fst r) = Some (keyed_ctx c enc k k)) /\
  contexts (snd r) !! NULL = contexts w !! NULL.
Proof.
  cbv zeta. split; [split|split].
  - intros Hnz. apply init_nonzero in Hnz. tauto.
  - intros (Hlen & Hu & Ht & He & Hr).
    generalize (init_cases c o key enc w).
    generalize (init c o key enc w). intros r Hc.
    destruct Hc; cbn [fst]; try congruence.
    + rewrite Ht, He in *. congruence.
    + apply jlong_of_ptr_nonzero, Hu.
  - intros Hnz. apply init_nonzero in Hnz as (_ & [Ha _] & _ & _ & _ & ->).
    cbn [fst snd contexts exception].
    rewrite ptr_of_jlong_of_ptr by done. rewrite lookup_insert_eq.
    split; [unfold NULL; lia|done].
  - generalize (init_cases c o key enc w).
    generalize (init c o key enc w). intros r Hc.
    destruct Hc as [| |e ? [Ha ?]| |? [Ha ?]]; cbn [snd contexts]; try done;
      apply lookup_insert_ne; unfold NULL; lia.
Qed.

(** C9: two contexts built for encryption from the same key, each in a world
    of its own, turn the same plaintext into the same ciphertext. *)
Theorem encryption_deterministic (o1 o2 p1 p2 : Outcomes) (key pt : list Z)
  (w1 w2 : World) :
  let a := init c o1 key true w1 in
  let b := init c o2 key true w2 in
  fst a ≠ 0 -> fst b ≠ 0 ->
  cipher_result p1 = 1 -> cipher_result p2 = 1 ->
  fst (process p1 (fst a) pt (snd a)) = fst (process p2 (fst b) pt (snd b)).
Proof.
  cbv zeta. intros Ha Hb H1 H2.
  destruct (init_live c o1 key true w1 Ha) as (x & Hx & Hcx).
  destruct (init_live c o2 key true w2 Hb) as (y & Hy & Hcy).
  rewrite (process_live p1 _ pt _ x c), (process_live p2 _ pt _ y c) by done.
  apply init_nonzero in Ha as (_ & [Ha _] & _ & _ & _ & Ea).
  apply init_nonzero in Hb as (_ & [Hb _] & _ & _ & _ & Eb).
  rewrite Ea in Hx. rewrite Eb in Hy. cbn [fst snd contexts] in Hx, Hy.
  rewrite ptr_of_jlong_of_ptr, lookup_insert_eq in Hx by done.
  rewrite ptr_of_jlong_of_ptr, lookup_insert_eq in Hy by done.
  injection Hx as <-. injection Hy as <-. reflexivity.
Qed.

End Construction.

(** A three-byte key is refused. *)
Lemma init_rejects_short_key :
  init aes_128_cfb8 (answers 4096) [1; 2; 3] true no_contexts
    = (0, set_exception (Some IllegalArgumentException) no_contexts) /\
  error_kind IllegalArgumentException = Some InvalidKeyLength /\
  contexts (snd (init aes_128_cfb8 (answers 4096) [1; 2; 3] true no_contexts))
    = contexts no_contexts.
Proof. apply init_rejects_key_length. cbn. lia. Defined.

(** Spec 8: key of 16 bytes 0x01, the same plaintext through two encrypt
    contexts. *)
Lemma same_key_same_ciphertext :
  let a := init aes_128_cfb8 (answers 4096) (replicate 16 1) true no_contexts in
  let b := init aes_128_cfb8 (answers 8192) (replicate 16 1) true (snd a) in
  fst (process (answers 0) (fst a) hello (snd a))
    = fst (process (answers 0) (fst b) hello (snd b)).
Proof. apply encryption_deterministic; by vm_compute. Defined.

(** ** Processing *)

Lemma set_iv_same (x : EVP_CIPHER_CTX) : set_iv (ctx_iv x) x = x.
Proof. by destruct x. Qed.

Lemma set_contexts_same (w : World) : set_contexts (contexts w) w = w.
Proof. by destruct w. Qed.

(** C4, as the code has it: [process] drops the result code of
    [EVP_CipherUpdate].  Whatever the backend reports, the call returns the
    bytes the update stored and the world the update left, with no exception
    raised and no context released. *)
Theorem process_drops_update_result (o : Outcomes) (h : Z) (src : list Z)
  (w : World) :
  let u := EVP_CipherUpdate o (ptr_of_jlong h) src w in
  let r := process o h src w in
  r = (snd (fst u), snd u) /\
  exception (snd r) = exception w /\
  dom (contexts (snd r)) = dom (contexts w).
Proof.
  cbv zeta. destruct (process_frame o h src w) as [He Hd].
  split; [reflexivity|]. split; assumption.
Qed.

(** C4, as the claim has it, fails: on a context fresh from [init] the
    backend reports an error (result 0) for an update; [process] returns
    with no exception pending and the context still allocated, and the next
    call on the same context encrypts as if nothing had happened. *)
Lemma update_error_not_surfaced :
  let r := init aes_128_cfb8 (answers 4096) (replicate 16 0) true no_contexts in
  let fault :=
    {| allocated := 0; stack := []; thrown := None; cipher_result := 0 |} in
  let after := snd (process fault (fst r) hello (snd r)) in
  fst (fst (EVP_CipherUpdate fault (ptr_of_jlong (fst r)) hello (snd r))) = 0 /\
  exception after = None /\
  is_Some (contexts after !! ptr_of_jlong (fst r)) /\
  fst (process (answers 0) (fst r) hello after) = hello_ciphertext.
Proof.
  cbv zeta. split; [by vm_compute|]. split; [by vm_compute|].
  split; [|by vm_compute].
  apply elem_of_dom. by vm_compute.
Qed.

(** C6: on a live context, when the backend reports success, [process]
    stores exactly as many bytes as it was given. *)
Theorem process_preserves_length (o : Outcomes) (h : Z) (src : list Z)
  (w : World) :
  live aes_128_cfb8 w h ->
  cipher_result o = 1 ->
  length (fst (process o h src w)) = length src.
Proof.
  intros (x & Hx & Hc) Hr.
  rewrite (process_live o h src w x aes_128_cfb8) by done.
  cbn [fst do_cipher aes_128_cfb8]. apply cfb8_length.
Qed.

(** C8: on a live context a call with no input stores nothing and leaves
    the world, the context's working IV included, as it was; every later
    call therefore gives what it would have given without it. *)
Theorem process_empty_is_noop (o : Outcomes) (h : Z) (w : World) :
  live aes_128_cfb8 w h ->
  process o h [] w = ([], w) /\
  forall (o' : Outcomes) (src : list Z),
    process o' h src (snd (process o h [] w)) = process o' h src w.
Proof.
  intros (x & Hx & Hc).
  assert (process o h [] w = ([], w)) as ->; [|done].
  run. unfold EVP_CipherUpdate. rewrite Hx, Hc.
  destruct (cipher_result o =? 1); [|done].
  cbn. rewrite set_iv_same, insert_id, set_contexts_same by done. done.
Qed.

(** C7: a context fed a stream chunk by chunk returns, concatenated, what a
    context freshly built from the same key and direction returns for the
    whole stream in one call, wherever the chunk boundaries fall. *)
Theorem streaming_equivalence (o1 o2 p1 p2 : Outcomes) (key : list Z)
  (enc : bool) (chunks : list (list Z)) (w1 w2 : World) :
  let a := init aes_128_cfb8 o1 key enc w1 in
  let b := init aes_128_cfb8 o2 key enc w2 in
  fst a ≠ 0 -> fst b ≠ 0 ->
  cipher_result p1 = 1 -> cipher_result p2 = 1 ->
  fst (process_chunks p1 (fst a) chunks (snd a))
    = fst (process p2 (fst b) (concat chunks) (snd b)).
Proof.
  cbv zeta. intros Ha Hb H1 H2.
  destruct (init_live _ o1 key enc w1 Ha) as (x & Hx & Hcx).
  destruct (init_live _ o2 key enc w2 Hb) as (y & Hy & Hcy).
  rewrite (process_chunks_live p1 _ chunks H1 _ x Hx Hcx).
  rewrite (process_live p2 _ _ _ y aes_128_cfb8) by done.
  apply init_nonzero in Ha as (_ & [Ha _] & _ & _ & _ & Ea).
  apply init_nonzero in Hb as (_ & [Hb _] & _ & _ & _ & Eb).
  rewrite Ea in Hx. rewrite Eb in Hy. cbn [fst snd contexts] in Hx, Hy.
  rewrite ptr_of_jlong_of_ptr, lookup_insert_eq in Hx by done.
  rewrite ptr_of_jlong_of_ptr, lookup_insert_eq in Hy by done.
  injection Hx as <-. injection Hy as <-. reflexivity.
Qed.

(** C1: an encrypting and a decrypting context are built from the same key
    (both constructions succeed, so the key has 16 bytes); the plaintext
    goes through the first and what comes out goes through the second, which
    returns the plaintext. *)
Theorem round_trip (oE oD p1 p2 : Outcomes) (key pt : list Z) (w : World) :
  let e := init aes_128_cfb8 oE key true w in
  let d := init aes_128_cfb8 oD key false (snd e) in
  let ct := process p1 (fst e) pt (snd d) in
  fst e ≠ 0 -> fst d ≠ 0 ->
  cipher_result p1 = 1 -> cipher_result p2 = 1 ->
  fst (process p2 (fst d) (fst ct) (snd ct)) = pt.
Proof.
  cbv zeta. intros He Hd H1 H2.
  apply init_nonzero in He as (_ & [He _] & _ & _ & _ & Ee).
  rewrite Ee in *. cbn [fst snd] in *.
  apply init_nonzero in Hd as (_ & [Hd Hfree] & _ & _ & _ & Ed).
  rewrite Ed. cbn [fst snd contexts] in *.
  assert (allocated oD ≠ allocated oE) as Hne.
  { intros E. rewrite E, lookup_insert_eq in Hfree. done. }
  set (k := map byte_of_jbyte key).
  rewrite (process_live p1 _ pt _ (keyed_ctx aes_128_cfb8 true k k)
             aes_128_cfb8); [|cbn [contexts]|done|done].
  2:{ rewrite ptr_of_jlong_of_ptr, lookup_insert_ne, lookup_insert_eq; done. }
  cbn [fst snd].
  rewrite (process_live p2 _ _ _ (keyed_ctx aes_128_cfb8 false k k)
             aes_128_cfb8); [|cbn [contexts set_contexts]|done|done].
  2:{ rewrite !ptr_of_jlong_of_ptr by done.
      rewrite lookup_insert_ne, lookup_insert_eq; done. }
  cbn [fst snd keyed_ctx ctx_key ctx_encrypt ctx_iv do_cipher aes_128_cfb8].
  apply cfb8_decrypt_encrypt.
Qed.

(** C5: after a successful [init] the context at the handle has the cipher
    [EVP_aes_128_cfb8()] set, the direction asked for, and the 16 key bytes
    both as key and as IV; a call of [process] on it is AES-128 CFB8 under
    that key, starting from that key as the feedback register. *)
Theorem init_sets_key_as_iv (o : Outcomes) (key : list Z) (enc : bool)
  (w : World) :
  let r := init aes_128_cfb8 o key enc w in
  let k := map byte_of_jbyte key in
  fst r ≠ 0 ->
  contexts (snd r) !! ptr_of_jlong (fst r)
    = Some {| ctx_cipher := Some aes_128_cfb8; ctx_encrypt := enc;
              ctx_key := k; ctx_iv := k |} /\
  forall (p : Outcomes) (src : list Z),
    cipher_result p = 1 ->
    fst (process p (fst r) src (snd r))
      = fst (CFB8.CRYPTO_cfb128_8_encrypt (AES.Cipher k) enc k src).
Proof.
  cbv zeta. intros Hnz.
  apply init_nonzero in Hnz as (Hlen & [Ha _] & _ & _ & _ & ->).
  cbn [fst snd contexts].
  assert (keyed_ctx aes_128_cfb8 enc (map byte_of_jbyte key)
            (map byte_of_jbyte key)
          = {| ctx_cipher := Some aes_128_cfb8; ctx_encrypt := enc;
               ctx_key := map byte_of_jbyte key;
               ctx_iv := map byte_of_jbyte key |}) as ->.
  { unfold keyed_ctx. cbn [key_len iv_len aes_128_cfb8].
    by rewrite take_ge by (rewrite length_map; lia). }
  rewrite ptr_of_jlong_of_ptr, lookup_insert_eq by done.
  split; [done|]. intros p src Hp.
  rewrite (process_live p _ src _
             {| ctx_cipher := Some aes_128_cfb8; ctx_encrypt := enc;
                ctx_key := map byte_of_jbyte key;
                ctx_iv := map byte_of_jbyte key |} aes_128_cfb8);
    [reflexivity| |reflexivity|done].
  cbn [contexts]. rewrite ptr_of_jlong_of_ptr by done.
  apply lookup_insert_eq.
Qed.

(** ** The concrete scenarios *)

(** Spec 8: key of 16 bytes 0x00, "Hello, world!" encrypted, then decrypted
    by a context of its own; the ciphertext on the way is the one OpenSSL
    prints. *)
Lemma round_trip_hello :
  let e := init aes_128_cfb8 (answers 4096) (replicate 16 0) true no_contexts in
  let d := init aes_128_cfb8 (answers 8192) (replicate 16 0) false (snd e) in
  let ct := process (answers 0) (fst e) hello (snd d) in
  fst ct = hello_ciphertext /\
  fst (process (answers 0) (fst d) (fst ct) (snd ct)) = hello.
Proof.
  split; [by vm_compute|].
  apply (round_trip (answers 4096) (answers 8192) (answers 0) (answers 0));
    by vm_compute.
Defined.

(** The context [init] builds from the all-zero key. *)
Lemma init_zero_key_ready :
  let r := init aes_128_cfb8 (answers 4096) (replicate 16 0) true no_contexts in
  contexts (snd r) !! ptr_of_jlong (fst r)
    = Some {| ctx_cipher := Some aes_128_cfb8; ctx_encrypt := true;
              ctx_key := replicate 16 0; ctx_iv := replicate 16 0 |} /\
  forall (p : Outcomes) (src : list Z),
    cipher_result p = 1 ->
    fst (process p (fst r) src (snd r))
      = fst (CFB8.CRYPTO_cfb128_8_encrypt (AES.Cipher (replicate 16 0)) true
               (replicate 16 0) src).
Proof.
  apply (init_sets_key_as_iv (answers 4096) (replicate 16 0) true no_contexts).
  by vm_compute.
Defined.

(** Thirteen bytes in, thirteen bytes out. *)
Lemma hello_keeps_length :
  let r := init aes_128_cfb8 (answers 4096) (replicate 16 0) true no_contexts in
  length (fst (process (answers 0) (fst r) hello (snd r))) = 13%nat.
Proof.
  apply (process_preserves_length (answers 0)).
  - eexists. split; reflexivity.
  - reflexivity.
Defined.

(** An empty call on a context fresh from [init]. *)
Lemma empty_call_changes_nothing :
  let r := init aes_128_cfb8 (answers 4096) (replicate 16 0) true no_contexts in
  process (answers 0) (fst r) [] (snd r) = ([], snd r) /\
  forall (o' : Outcomes) (src : list Z),
    process o' (fst r) src (snd (process (answers 0) (fst r) [] (snd r)))
      = process o' (fst r) src (snd r).
Proof.
  apply (process_empty_is_noop (answers 0)).
  eexists. split; reflexivity.
Defined.

(** "Hello, world!" cut into four chunks, one of them empty. *)
Lemma hello_in_chunks :
  let a := init aes_128_cfb8 (answers 4096) (replicate 16 0) true no_contexts in
  let b := init aes_128_cfb8 (answers 8192) (replicate 16 0) true (snd a) in
  fst (process_chunks (answers 0) (fst a)
         [[72; 101]; []; [108; 108; 111; 44; 32]; [119; 111; 114; 108; 100; 33]]
         (snd a))
    = fst (process (answers 0) (fst b) hello (snd b)).
Proof.
  apply (streaming_equivalence (answers 4096) (answers 8192) (answers 0)
           (answers 0) (replicate 16 0) true
           [[72; 101]; []; [108; 108; 111; 44; 32];
            [119; 111; 114; 108; 100; 33]]);
    by vm_compute.
Defined.

(** C3 fails on the code: with a 16-byte key and a context allocated, an
    exception pending after the key copy makes [init] return 0 while the
    context it allocated stays allocated, out of reach of [free] since the
    handle returned is 0; on the next failure path (the backend refusing to
    initialise) the context is freed. *)
Theorem init_copy_failure_leaks_context :
  let raising :=
    {| allocated := 4096; stack := []; thrown := Some ThreadDeath;
       cipher_result := 1 |} in
  let refusing :=
    {| allocated := 4096; stack := []; thrown := None; cipher_result := 0 |} in
  let r := init aes_128_cfb8 raising (replicate 16 0) true no_contexts in
  let s := init aes_128_cfb8 refusing (replicate 16 0) true no_contexts in
  fst r = 0 /\
  exception (snd r) = Some ThreadDeath /\
  contexts (snd r) !! 4096 = Some blank_ctx /\
  contexts (snd (free (fst r) (snd r))) !! 4096 = Some blank_ctx /\
  fst s = 0 /\
  exception (snd s) = Some GeneralSecurityException /\
  contexts (snd s) = ∅.
Proof. by vm_compute. Qed.

(** * Further properties of [init], [free] and [process] *)

(** [init_outcome] names one outcome per call. *)
Lemma init_outcome_functional (c : EVP_CIPHER) (o : Outcomes) (key : list Z)
  (enc : bool) (w : World) (r1 r2 : Z * World) :
  init_outcome c o key enc w r1 -> init_outcome c o key enc w r2 -> r1 = r2.
Proof.
  intros H1 H2.
  destruct H1, H2;
    repeat match goal with
           | H : thrown o = None |- _ => rewrite H in *; clear H
           | H : exception w = None |- _ => rewrite H in *; clear H
           end;
    try done; congruence.
Qed.

(** To show what [init] returns, show that it is one of the outcomes. *)
Lemma init_is (c : EVP_CIPHER) (o : Outcomes) (key : list Z) (enc : bool)
  (w : World) (r : Z * World) :
  init_outcome c o key enc w r -> init c o key enc w = r.
Proof.
  intros Hr. apply (init_outcome_functional c o key enc w); [|done].
  apply init_cases.
Qed.

(** [process] on an allocated context with a cipher set, whatever the
    backend reports. *)
Lemma process_eq (o : Outcomes) (h : Z) (src : list Z) (w : World)
  (x : EVP_CIPHER_CTX) (c : EVP_CIPHER) :
  contexts w !! ptr_of_jlong h = Some x ->
  ctx_cipher x = Some c ->
  process o h src w =
    if cipher_result o =? 1 then
      (fst (do_cipher c (ctx_key x) (ctx_encrypt x) (ctx_iv x) src),
       set_contexts
         (<[ptr_of_jlong h :=
              set_iv (snd (do_cipher c (ctx_key x) (ctx_encrypt x) (ctx_iv x)
                             src)) x]> (contexts w)) w)
    else ([], w).
Proof.
  intros Hx Hc. run. unfold EVP_CipherUpdate. rewrite Hx, Hc.
  by destruct (cipher_result o =? 1).
Qed.

(** X1: [init] returns 0 exactly when it leaves an exception pending: every
    failure is signalled, and a handle never comes with an exception. *)
Theorem init_zero_iff_exception (c : EVP_CIPHER) (o : Outcomes)
  (key : list Z) (enc : bool) (w : World) :
  fst (init c o key enc w) = 0 <->
  is_Some (exception (snd (init c o key enc w))).
Proof.
  generalize (init_cases c o key enc w).
  generalize (init c o key enc w). intros r Hr.
  destruct Hr as [| | | |? [Ha ?]]; cbn [fst snd exception set_exception];
    try (split; [intros _; by eexists|done]).
  split.
  - intros E. by apply jlong_of_ptr_nonzero in E.
  - by intros [? ?].
Qed.

(** X2: when the allocation fails, [init] returns 0 with OutOfMemoryError
    ("allocate cipher") pending and the contexts as they were. *)
Theorem init_allocation_failure (c : EVP_CIPHER) (o : Outcomes)
  (key : list Z) (enc : bool) (w : World) :
  length key = 16%nat ->
  ~ usable w (allocated o) ->
  init c o key enc w =
    (0, {| contexts := contexts w;
           exception := Some {| class := "java/lang/OutOfMemoryError";
                                message := "allocate cipher" |} |}).
Proof. intros Hlen Hu. apply init_is. by apply init_no_memory. Qed.

(** The allocator returns no address. *)
Lemma init_out_of_memory :
  init aes_128_cfb8 (answers 0) (replicate 16 0) true no_contexts =
    (0, {| contexts := contexts no_contexts;
           exception := Some {| class := "java/lang/OutOfMemoryError";
                                message := "allocate cipher" |} |}).
Proof.
  apply init_allocation_failure; [reflexivity|].
  intros [[H _] _]. vm_compute in H. discriminate.
Defined.

(** X3: when the backend refuses to initialise the cipher, [init] frees the
    context it allocated: it returns 0 with GeneralSecurityException
    ("openssl initialize cipher") pending and the contexts as they were. *)
Theorem init_backend_failure_frees (c : EVP_CIPHER) (o : Outcomes)
  (key : list Z) (enc : bool) (w : World) :
  length key = 16%nat ->
  usable w (allocated o) ->
  thrown o = None -> exception w = None ->
  cipher_result o ≠ 1 ->
  init c o key enc w =
    (0, {| contexts := contexts w;
           exception :=
             Some {| class := "java/security/GeneralSecurityException";
                     message := "openssl initialize cipher" |} |}).
Proof. intros. apply init_is. by apply init_backend_failed. Qed.

(** The backend returns 0 from [EVP_CipherInit]. *)
Lemma init_backend_refuses :
  init aes_128_cfb8
    {| allocated := 4096; stack := []; thrown := None; cipher_result := 0 |}
    (replicate 16 0) true no_contexts =
    (0, {| contexts := contexts no_contexts;
           exception :=
             Some {| class := "java/security/GeneralSecurityException";
                     message := "openssl initialize cipher" |} |}).
Proof.
  apply init_backend_failure_frees; try reflexivity.
  - split; [cbn; lia|reflexivity].
  - cbn. lia.
Defined.

(** X4: whatever way [init] ends, every context allocated before the call
    is there after it, unchanged. *)
Theorem init_preserves_contexts (c : EVP_CIPHER) (o : Outcomes)
  (key : list Z) (enc : bool) (w : World) (p : Z) (x : EVP_CIPHER_CTX) :
  contexts w !! p = Some x ->
  contexts (snd (init c o key enc w)) !! p = Some x.
Proof.
  intros Hp.
  generalize (init_cases c o key enc w).
  generalize (init c o key enc w). intros r Hr.
  destruct Hr as [| |? ? [? Hf]| |? [? Hf]];
    cbn [snd contexts set_exception]; try done;
    rewrite lookup_insert_ne; congruence.
Qed.

(** A second [init] leaves the first context in place. *)
Lemma second_init_keeps_first :
  let e := init aes_128_cfb8 (answers 4096) (replicate 16 0) true no_contexts in
  contexts (snd (init aes_128_cfb8 (answers 8192) (replicate 16 1) false
                   (snd e))) !! 4096
    = Some (keyed_ctx aes_128_cfb8 true (replicate 16 0) (replicate 16 0)).
Proof. apply init_preserves_contexts. reflexivity. Defined.

(** X5: a handle [init] returns is new: it differs from every handle at
    whose address a context was allocated before the call. *)
Theorem init_handle_is_fresh (c : EVP_CIPHER) (o : Outcomes)
  (key : list Z) (enc : bool) (w : World) (h : Z) :
  fst (init c o key enc w) ≠ 0 ->
  is_Some (contexts w !! ptr_of_jlong h) ->
  h ≠ fst (init c o key enc w).
Proof.
  intros Hnz [x Hx] ->.
  apply init_nonzero in Hnz as (_ & [Ha Hf] & _ & _ & _ & E).
  rewrite E in Hx. cbn [fst] in Hx.
  rewrite ptr_of_jlong_of_ptr in Hx by done. congruence.
Qed.

(** Two contexts in a row have different handles. *)
Lemma second_handle_differs :
  let e := init aes_128_cfb8 (answers 4096) (replicate 16 0) true no_contexts in
  fst e
    ≠ fst (init aes_128_cfb8 (answers 8192) (replicate 16 0) true (snd e)).
Proof.
  apply init_handle_is_fresh; [by vm_compute|].
  eexists. reflexivity.
Defined.

(** X6: [free] on the handle a successful [init] returned gives back the
    world as it was before the [init]. *)
Theorem free_undoes_init (c : EVP_CIPHER) (o : Outcomes) (key : list Z)
  (enc : bool) (w : World) :
  fst (init c o key enc w) ≠ 0 ->
  free (fst (init c o key enc w)) (snd (init c o key enc w)) = (tt, w).
Proof.
  intros Hnz.
  apply init_nonzero in Hnz as (_ & [Ha Hfree] & _ & Hexc & _ & ->).
  run. unfold EVP_CIPHER_CTX_free.
  rewrite ptr_of_jlong_of_ptr by done. not_null.
  unfold set_contexts. cbn [contexts exception].
  rewrite delete_insert_id by done.
  destruct w as [m e]. cbn in Hexc. by rewrite Hexc.
Qed.

(** Built, then released: nothing is left allocated. *)
Lemma free_undoes_init_zero_key :
  let r := init aes_128_cfb8 (answers 4096) (replicate 16 0) true no_contexts in
  free (fst r) (snd r) = (tt, no_contexts).
Proof. apply free_undoes_init. by vm_compute. Defined.

(** X7: [free] on the handle of an allocated context releases that context
    and no other: a live context at another address stays live, and
    [process] on it returns what it would have returned without the [free]. *)
Theorem free_leaves_other_contexts (c : EVP_CIPHER) (o : Outcomes)
  (h1 h2 : Z) (src : list Z) (w : World) :
  is_Some (contexts w !! ptr_of_jlong h1) ->
  live c w h2 ->
  ptr_of_jlong h1 ≠ ptr_of_jlong h2 ->
  let w' := snd (free h1 w) in
  (ptr_of_jlong h1 ≠ NULL -> contexts w' !! ptr_of_jlong h1 = None) /\
  live c w' h2 /\
  fst (process o h2 src w') = fst (process o h2 src w).
Proof.
  intros _ (x & Hx & Hc) Hne. cbv zeta.
  assert (contexts (snd (free h1 w)) !! ptr_of_jlong h2 = Some x) as Hx'.
  { run. unfold EVP_CIPHER_CTX_free.
    destruct (ptr_of_jlong h1 =? NULL); [done|].
    cbn [snd set_contexts contexts]. by rewrite lookup_delete_ne. }
  split; [|split].
  - intros Hn. run. unfold EVP_CIPHER_CTX_free.
    destruct (Z.eqb_spec (ptr_of_jlong h1) NULL) as [|_]; [done|].
    cbn [snd set_contexts contexts]. apply lookup_delete_eq.
  - by exists x.
  - rewrite (process_eq o h2 src _ x c Hx' Hc).
    rewrite (process_eq o h2 src _ x c Hx Hc).
    by destruct (cipher_result o =? 1).
Qed.

(** Of two contexts the first is released; the second still encrypts. *)
Lemma free_first_keep_second :
  let e := init aes_128_cfb8 (answers 4096) (replicate 16 0) true no_contexts in
  let d := init aes_128_cfb8 (answers 8192) (replicate 16 1) true (snd e) in
  let w' := snd (free (fst e) (snd d)) in
  (ptr_of_jlong (fst e) ≠ NULL ->
   contexts w' !! ptr_of_jlong (fst e) = None) /\
  live aes_128_cfb8 w' (fst d) /\
  fst (process (answers 0) (fst d) hello w')
    = fst (process (answers 0) (fst d) hello (snd d)).
Proof.
  apply (free_leaves_other_contexts aes_128_cfb8 (answers 0)).
  - eexists. reflexivity.
  - eexists. split; reflexivity.
  - by vm_compute.
Defined.

(** X8: calls of [process] on two live contexts at different addresses
    commute: either order gives the same outputs and the same world. *)
Theorem process_commutes (c1 c2 : EVP_CIPHER) (o1 o2 : Outcomes)
  (h1 h2 : Z) (s1 s2 : list Z) (w : World) :
  let a := process o1 h1 s1 w in
  let b := process o2 h2 s2 (snd a) in
  let b' := process o2 h2 s2 w in
  let a' := process o1 h1 s1 (snd b') in
  live c1 w h1 -> live c2 w h2 ->
  ptr_of_jlong h1 ≠ ptr_of_jlong h2 ->
  fst a = fst a' /\ fst b = fst b' /\ snd b = snd a'.
Proof.
  cbv zeta. intros (x & Hx & Hcx) (y & Hy & Hcy) Hne.
  rewrite (process_eq o1 h1 s1 w x c1 Hx Hcx).
  rewrite (process_eq o2 h2 s2 w y c2 Hy Hcy).
  destruct (cipher_result o1 =? 1) eqn:E1;
    destruct (cipher_result o2 =? 1) eqn:E2; cbn [fst snd].
  - rewrite (process_eq o2 h2 s2 _ y c2), (process_eq o1 h1 s1 _ x c1);
      try done; try (cbn [contexts set_contexts]; by rewrite lookup_insert_ne).
    rewrite E1, E2. unfold set_contexts. cbn [fst snd contexts exception].
    repeat split. f_equal. by apply insert_insert_ne.
  - rewrite (process_eq o2 h2 s2 _ y c2), (process_eq o1 h1 s1 _ x c1);
      try done; try (cbn [contexts set_contexts]; by rewrite lookup_insert_ne).
    by rewrite E1, E2.
  - rewrite (process_eq o2 h2 s2 _ y c2), (process_eq o1 h1 s1 _ x c1);
      try done; try (cbn [contexts set_contexts]; by rewrite lookup_insert_ne).
    by rewrite E1, E2.
  - rewrite (process_eq o2 h2 s2 _ y c2 Hy Hcy).
    rewrite (process_eq o1 h1 s1 _ x c1 Hx Hcx).
    by rewrite E1, E2.
Qed.

(** Two streams, one call each, in either order. *)
Lemma two_streams_commute :
  let e := init aes_128_cfb8 (answers 4096) (replicate 16 0) true no_contexts in
  let d := init aes_128_cfb8 (answers 8192) (replicate 16 1) true (snd e) in
  let a := process (answers 0) (fst e) hello (snd d) in
  let b := process (answers 0) (fst d) [1; 2; 3] (snd a) in
  let b' := process (answers 0) (fst d) [1; 2; 3] (snd d) in
  let a' := process (answers 0) (fst e) hello (snd b') in
  fst a = fst a' /\ fst b = fst b' /\ snd b = snd a'.
Proof.
  apply (process_commutes aes_128_cfb8 aes_128_cfb8).
  - eexists. split; reflexivity.
  - eexists. split; reflexivity.
  - by vm_compute.
Defined.

(** Two calls in a row on a context keyed for [aes_128_cfb8] are one call
    on the two inputs joined, in what they return and in what they leave. *)
Lemma process_app_live (o : Outcomes) (h : Z) (s1 s2 : list Z) (w : World)
  (x : EVP_CIPHER_CTX) :
  contexts w !! ptr_of_jlong h = Some x ->
  ctx_cipher x = Some aes_128_cfb8 ->
  cipher_result o = 1 ->
  process o h (s1 ++ s2) w =
    (fst (process o h s1 w) ++ fst (process o h s2 (snd (process o h s1 w))),
     snd (process o h s2 (snd (process o h s1 w)))).
Proof.
  intros Hx Hc Hr.
  rewrite !(process_live o h _ w x aes_128_cfb8) by done.
  cbn [fst snd].
  erewrite (process_live o h s2 _ _ aes_128_cfb8);
    [|cbn [contexts set_contexts]; apply lookup_insert_eq|done|done].
  cbn [fst snd do_cipher aes_128_cfb8 set_iv ctx_key ctx_encrypt ctx_iv
       ctx_cipher].
  rewrite cfb8_app. cbn [fst snd].
  unfold set_contexts. cbn [contexts exception].
  by rewrite insert_insert_eq.
Qed.

(** No input, no change. *)
Lemma process_nil_live (o : Outcomes) (h : Z) (w : World)
  (x : EVP_CIPHER_CTX) :
  contexts w !! ptr_of_jlong h = Some x ->
  ctx_cipher x = Some aes_128_cfb8 ->
  process o h [] w = ([], w).
Proof.
  intros Hx Hc. rewrite (process_eq o h [] w x aes_128_cfb8 Hx Hc).
  destruct (cipher_result o =? 1); [|done].
  cbn. destruct x, w; cbn in *. by rewrite insert_id.
Qed.

(** Chunk by chunk is one call on the chunks joined. *)
Lemma process_chunks_whole (o : Outcomes) (h : Z) (chunks : list (list Z)) :
  cipher_result o = 1 ->
  forall (w : World) (x : EVP_CIPHER_CTX),
  contexts w !! ptr_of_jlong h = Some x ->
  ctx_cipher x = Some aes_128_cfb8 ->
  process_chunks o h chunks w = process o h (concat chunks) w.
Proof.
  intros Hr. induction chunks as [|ch chunks IH]; intros w x Hx Hc.
  - cbn [process_chunks concat]. symmetry. by eapply process_nil_live.
  - cbn [process_chunks concat]. unfold mbind, M_bind, mret, M_ret.
    cbv zeta. cbn [fst snd].
    rewrite (process_app_live o h ch (concat chunks) w x) by done.
    rewrite (IH (snd (process o h ch w))
               (set_iv (snd (do_cipher aes_128_cfb8 (ctx_key x)
                               (ctx_encrypt x) (ctx_iv x) ch)) x));
      [reflexivity| |done].
    rewrite (process_live o h ch w x aes_128_cfb8) by done.
    cbn [snd contexts set_contexts]. apply lookup_insert_eq.
Qed.

(** X9: on a live context, with the backend succeeding, feeding the chunks
    one call at a time is one call on the chunks joined: same bytes returned
    and the same world left, so whatever follows behaves the same. *)
Theorem process_chunks_is_one_call (o : Outcomes) (h : Z)
  (chunks : list (list Z)) (w : World) :
  live aes_128_cfb8 w h ->
  cipher_result o = 1 ->
  process_chunks o h chunks w = process o h (concat chunks) w.
Proof.
  intros (x & Hx & Hc) Hr. by apply (process_chunks_whole o h chunks Hr w x).
Qed.

(** Three chunks, one of them empty, against one call. *)
Lemma hello_chunks_leave_same_world :
  let r := init aes_128_cfb8 (answers 4096) (replicate 16 0) true no_contexts in
  process_chunks (answers 0) (fst r) [[72; 101; 108]; []; [108; 111]] (snd r)
    = process (answers 0) (fst r) [72; 101; 108; 108; 111] (snd r).
Proof.
  apply (process_chunks_is_one_call (answers 0) _
           [[72; 101; 108]; []; [108; 111]]).
  - eexists. split; reflexivity.
  - reflexivity.
Defined.

(** X10: a stream encrypted chunk by chunk through one context and
    decrypted through another built from the same key comes back whole,
    however the ciphertext is cut into chunks on the way. *)
Theorem chunked_round_trip (oE oD p1 p2 : Outcomes) (key : list Z)
  (sent received : list (list Z)) (w : World) :
  let e := init aes_128_cfb8 oE key true w in
  let d := init aes_128_cfb8 oD key false (snd e) in
  let ct := process_chunks p1 (fst e) sent (snd d) in
  fst e ≠ 0 -> fst d ≠ 0 ->
  cipher_result p1 = 1 -> cipher_result p2 = 1 ->
  concat received = fst ct ->
  fst (process_chunks p2 (fst d) received (snd ct)) = concat sent.
Proof.
  cbv zeta. intros He Hd H1 H2.
  apply init_nonzero in He as (_ & [He _] & _ & _ & _ & Ee).
  rewrite Ee. cbn [fst snd].
  rewrite Ee in Hd. cbn [fst snd] in Hd.
  apply init_nonzero in Hd as (_ & [Hd Hfree] & _ & _ & _ & Ed).
  rewrite Ed. cbn [fst snd contexts] in *.
  assert (allocated oD ≠ allocated oE) as Hne.
  { intros E. rewrite E, lookup_insert_eq in Hfree. done. }
  set (k := map byte_of_jbyte key).
  set (wd := {| contexts := _; exception := None |}).
  assert (contexts wd !! ptr_of_jlong (jlong_of_ptr (allocated oE))
          = Some (keyed_ctx aes_128_cfb8 true k k)) as HE.
  { cbn [wd contexts].
    by rewrite ptr_of_jlong_of_ptr, lookup_insert_ne, lookup_insert_eq. }
  rewrite (process_chunks_whole p1 _ sent H1 wd _ HE eq_refl).
  rewrite (process_live p1 _ _ wd _ aes_128_cfb8 HE eq_refl H1).
  cbn [fst snd]. intros Hrec.
  set (wc := set_contexts _ wd).
  assert (contexts wc !! ptr_of_jlong (jlong_of_ptr (allocated oD))
          = Some (keyed_ctx aes_128_cfb8 false k k)) as HD.
  { cbn [wc wd contexts set_contexts].
    rewrite !ptr_of_jlong_of_ptr by done.
    by rewrite lookup_insert_ne, lookup_insert_eq. }
  rewrite (process_chunks_whole p2 _ received H2 wc _ HD eq_refl).
  rewrite (process_live p2 _ _ wc _ aes_128_cfb8 HD eq_refl H2).
  rewrite Hrec.
  cbn [fst snd keyed_ctx ctx_key ctx_encrypt ctx_iv do_cipher aes_128_cfb8].
  apply cfb8_decrypt_encrypt.
Qed.

(** Sent as 3 + 2 bytes, received as 1 + 4 bytes. *)
Lemma hello_rechunked :
  let e := init aes_128_cfb8 (answers 4096) (replicate 16 0) true no_contexts in
  let d := init aes_128_cfb8 (answers 8192) (replicate 16 0) false (snd e) in
  let ct := process_chunks (answers 0) (fst e)
              [[72; 101; 108]; [108; 111]] (snd d) in
  fst (process_chunks (answers 0) (fst d) [[0x2e]; [0x7d; 0x25; 0x80; 0x12]]
         (snd ct)) = [72; 101; 108; 108; 111].
Proof.
  apply (chunked_round_trip (answers 4096) (answers 8192) (answers 0)
           (answers 0) (replicate 16 0) [[72; 101; 108]; [108; 111]]
           [[0x2e]; [0x7d; 0x25; 0x80; 0x12]] no_contexts);
    by vm_compute.
Defined.



(** X12: the bytes the local array [keyBytes] held before the copy never
    reach the outcome: [init] gives the same result and world whatever they
    were. *)
Theorem init_ignores_uninitialised_bytes (c : EVP_CIPHER) (o o' : Outcomes)
  (key : list Z) (enc : bool) (w : World) :
  allocated o' = allocated o ->
  thrown o' = thrown o ->
  cipher_result o' = cipher_result o ->
  init c o' key enc w = init c o key enc w.
Proof.
  intros Ha Ht Hr.
  generalize (init_cases c o key enc w).
  generalize (init c o key enc w). intros r Hc.
  apply init_is.
  destruct Hc; rewrite <- ?Ha, <- ?Ht, <- ?Hr in *.
  - by apply init_bad_length.
  - by apply init_no_memory.
  - by apply init_copy_failed.
  - by apply init_backend_failed.
  - by apply init_ready.
Qed.

(** Other bytes on the stack, same outcome. *)
Lemma init_same_with_other_stack :
  init aes_128_cfb8
    {| allocated := 4096; stack := replicate 16 7; thrown := None;
       cipher_result := 1 |} (replicate 16 0) true no_contexts
    = init aes_128_cfb8 (answers 4096) (replicate 16 0) true no_contexts.
Proof. by apply init_ignores_uninitialised_bytes. Defined.
